(** * The LlamaIndex callback handler of chainlit

    A shallow embedding of [src/chainlit/llama_index/callbacks.py]: the
    class [LlamaIndexCallbackHandler] with its four entry points
    ([on_event_start], [on_event_end], [start_trace], [end_trace]) and its
    constructor, written as programs of a small state-and-exception monad
    over the handler object and the part of the outside world the handler
    touches (the ambient context variable, the sessions, the message sink). *)

From Stdlib Require Import Ascii String.
From stdpp Require Import gmap strings list pretty.

Open Scope string_scope.

(** ** The enumerations of [llama_index.callbacks.schema] *)

(** [CBEventType]: the members the module names, and any other member of
    the enumeration under its name. *)
Module CBEventType.
Inductive t :=
| CHUNKING | NODE_PARSING | EMBEDDING | LLM | QUERY | RETRIEVE
| SYNTHESIZE | TREE
| OTHER (name : string).

#[global] Instance event_type_eq_dec : EqDecision t.
Proof. solve_decision. Defined.
End CBEventType.

(** [EventPayload]: the keys of a payload dictionary. *)
Module EventPayload.
Inductive t :=
| NODES | RESPONSE | PROMPT
| OTHER (key : string).

#[global] Instance payload_key_eq_dec : EqDecision t.
Proof. solve_decision. Defined.

Definition to_sum (k : t) : nat + string :=
  match k with
  | NODES => inl 0 | RESPONSE => inl 1 | PROMPT => inl 2
  | OTHER s => inr s
  end.

Definition of_sum (x : nat + string) : t :=
  match x with
  | inl 0 => NODES | inl 1 => RESPONSE | inl _ => PROMPT
  | inr s => OTHER s
  end.

#[global] Instance payload_key_countable : Countable t.
Proof. apply (inj_countable' to_sum of_sum). by intros []. Defined.
End EventPayload.

(** ** The values a payload carries *)

(** A retrieved record: [source.node.get_text()]. *)
Module TextNode.
Record t := mk { get_text : string }.
End TextNode.

Module NodeWithScore.
Record t := mk { node : TextNode.t }.
End NodeWithScore.

(** An LLM answer: [response.message.content]. *)
Module ChatMessage.
Record t := mk { content : string }.
End ChatMessage.

Module ChatResponse.
Record t := mk { message : ChatMessage.t }.
End ChatResponse.

(** The payload is a [Dict[str, Any]]: the values are the Python objects
    the handler can meet under its three keys. *)
#[warnings="-register-all"]
Inductive PyValue :=
| PyNone
| PyStr (s : string)
| PyList (items : list PyValue)
| PyNodeWithScore (n : NodeWithScore.t)
| PyChatResponse (r : ChatResponse.t).

(** Python's truth value of an object ([if sources:], [if response]). *)
Definition truthy (v : PyValue) : bool :=
  match v with
  | PyNone => false
  | PyStr s => negb (String.eqb s "")
  | PyList items => negb (bool_decide (length items = 0))
  | PyNodeWithScore _ | PyChatResponse _ => true
  end.

(** [payload.get(key)]: [None] when the key is absent. *)
Definition dict_get (payload : gmap EventPayload.t PyValue)
    (key : EventPayload.t) : PyValue :=
  default PyNone (payload !! key).

(** ** chainlit's side: elements, messages, sessions, contexts *)

(** [chainlit.element.Text(name=..., content=...)]. *)
Module Text.
Record t := mk { name : string; content : string }.
End Text.

(** [chainlit.message.Message]. The handler reads the [id] of a message
    that already exists (the root message of the session) and constructs
    new messages from keyword arguments; a keyword that a call does not
    pass is recorded as [None] ([PyNone] for [prompt]). *)
Module Message.
Record t := mk { id : option string }.

Record kwargs := mk_kwargs {
  content : string;
  author : CBEventType.t;
  indent : option nat;
  elements : option (list Text.t);
  parent_id : option string;
  prompt : PyValue
}.
End Message.

(** A session object, and a context object that refers to one. Sessions
    are mutable and shared, so a context holds a reference into the
    store of sessions and not a copy. *)
Module Session.
Record t := mk { root_message : option Message.t }.
End Session.

Module ChainlitContext.
Record t := mk { session : nat }.

#[global] Instance context_eq_dec : EqDecision t.
Proof. solve_decision. Defined.
End ChainlitContext.

(** What a call does to the outside, in the order it does it. A send
    records the context the sink finds in the ambient slot. *)
Inductive Effect :=
| SetContext (c : ChainlitContext.t)
| Send (ambient : option ChainlitContext.t) (m : Message.kwargs).

(** The world outside the handler: [context_var] (unset in a thread that
    has no chainlit context), the store of sessions, and the effects so
    far, oldest first. *)
Record World := mkWorld {
  context_var : option ChainlitContext.t;
  sessions : nat -> Session.t;
  effects : list Effect
}.

(** ** The handler object *)

Record LlamaIndexCallbackHandler := mkHandler {
  root_message : option Message.t;
  context : ChainlitContext.t;
  event_starts_to_ignore : list CBEventType.t;
  event_ends_to_ignore : list CBEventType.t
}.

Definition DEFAULT_IGNORE : list CBEventType.t :=
  [ CBEventType.CHUNKING;
    CBEventType.SYNTHESIZE;
    CBEventType.EMBEDDING;
    CBEventType.NODE_PARSING;
    CBEventType.QUERY;
    CBEventType.TREE ].

(** ** Programs: state and exceptions *)

Inductive Exception := AttributeError | TypeError | LookupError | ValueError.

Inductive Result (A : Type) :=
| Return (a : A)
| Raise (e : Exception).
Arguments Return {A} a.
Arguments Raise {A} e.

(** A program over a state [S]: an exception leaves the state as it was
    when it was raised. *)
Definition Py (S A : Type) : Type := S -> Result A * S.

#[global] Instance Py_ret {S} : MRet (Py S) :=
  fun A a s => (Return a, s).

#[global] Instance Py_bind {S} : MBind (Py S) :=
  fun A B f m s =>
    match m s with
    | (Return a, s') => f a s'
    | (Raise e, s') => (Raise e, s')
    end.

Definition raise {S A} (e : Exception) : Py S A :=
  fun s => (Raise e, s).

Definition lift {S A} (r : Result A) : Py S A :=
  fun s => (r, s).

(** The state of a method call: [self] and the world. *)
Definition State : Type := LlamaIndexCallbackHandler * World.

Definition get_self : Py State LlamaIndexCallbackHandler :=
  fun s => (Return s.1, s).

(** [self.root_message = m]. *)
Definition set_root_message (m : option Message.t) : Py State unit :=
  fun s =>
    (Return (),
     (mkHandler m (context s.1) (event_starts_to_ignore s.1)
                (event_ends_to_ignore s.1), s.2)).

Definition on_world {A} (m : Py World A) : Py State A :=
  fun s => let '(r, w) := m s.2 in (r, (s.1, w)).

(** [context_var.get()]: [LookupError] when the variable is unset. *)
Definition context_var_get : Py World ChainlitContext.t :=
  fun w =>
    match context_var w with
    | Some c => (Return c, w)
    | None => (Raise LookupError, w)
    end.

(** [context_var.set(c)]. *)
Definition context_var_set (c : ChainlitContext.t) : Py World unit :=
  fun w =>
    (Return (),
     mkWorld (Some c) (sessions w) (effects w ++ [SetContext c])).

(** [run_sync(Message(...).send())]: the sink takes the message under the
    context it finds in the ambient slot; the call blocks until the send
    is over. What the sink does with the message is not the handler's. *)
Definition send (m : Message.kwargs) : Py World unit :=
  fun w =>
    (Return (),
     mkWorld (context_var w) (sessions w)
             (effects w ++ [Send (context_var w) m])).

(** [c.session.root_message]. *)
Definition session_root_message (c : ChainlitContext.t)
    : Py World (option Message.t) :=
  fun w =>
    (Return (Session.root_message (sessions w (ChainlitContext.session c))),
     w).

(** ** The methods of [LlamaIndexCallbackHandler] *)

(** [__init__]: the two lists default to [DEFAULT_IGNORE]; the class
    attribute [root_message] starts as [None]. *)
Definition __init__
    (event_starts_to_ignore event_ends_to_ignore : option (list CBEventType.t))
    : Py World LlamaIndexCallbackHandler :=
  ctx ← context_var_get;
  mret (mkHandler None ctx
          (default DEFAULT_IGNORE event_starts_to_ignore)
          (default DEFAULT_IGNORE event_ends_to_ignore)).

Definition on_event_start (event_type : CBEventType.t)
    (payload : option (gmap EventPayload.t PyValue)) (event_id : string)
    : Py State string :=
  self ← get_self;
  on_world (context_var_set (context self));;
  on_world (send (Message.mk_kwargs "" event_type (Some 1) None None PyNone));;
  mret "".

(** [f"Source {idx}"]. *)
Definition source_name (idx : nat) : string := "Source " +:+ pretty idx.

(** What [enumerate(sources)] yields: a value of the sequence, or a
    (field, value) pair of a model object. Nothing is read from a pair:
    it has no [node]. *)
Inductive Item :=
| ItemValue (v : PyValue)
| ItemField (field : string).

(** [source.node.get_text()] on an item of the sequence. *)
Definition node_get_text (source : Item) : Result string :=
  match source with
  | ItemValue (PyNodeWithScore n) =>
    Return (TextNode.get_text (NodeWithScore.node n))
  | _ => Raise AttributeError
  end.

(** The items [enumerate(sources)] goes through: those of a list, the
    one-character strings of a string, the (field, value) pairs of a
    retrieved record or of a chat response (the pair of the field this
    module reads stands for them: the comprehension stops at the first);
    [None] cannot be iterated. *)
Definition iterate (sources : PyValue) : Result (list Item) :=
  match sources with
  | PyList items => Return (ItemValue <$> items)
  | PyStr s =>
    Return ((fun c => ItemValue (PyStr (String c ""))) <$> list_ascii_of_string s)
  | PyNodeWithScore _ => Return [ItemField "node"]
  | PyChatResponse _ => Return [ItemField "message"]
  | PyNone => Raise TypeError
  end.

(** [Text(name=..., content=...)] of [chainlit.element], which is not in
    this module: an element needs a url, a path or a content, so the
    constructor raises [ValueError] on an empty content. *)
Definition Text_new (name content : string) : Result Text.t :=
  if String.eqb content "" then Raise ValueError
  else Return (Text.mk name content).

(** [[Text(name=f"Source {idx}", content=source.node.get_text())
      for idx, source in enumerate(sources)]], from index [idx] on, item
    by item: the first item without a [node], or whose text is empty,
    raises. *)
Fixpoint text_elements (idx : nat) (items : list Item)
    : Result (list Text.t) :=
  match items with
  | [] => Return []
  | source :: rest =>
    match node_get_text source with
    | Raise e => Raise e
    | Return text =>
      match Text_new (source_name idx) text with
      | Raise e => Raise e
      | Return element =>
        match text_elements (S idx) rest with
        | Raise e => Raise e
        | Return elements => Return (element :: elements)
        end
      end
    end
  end.

(** A retrieved record with some text. *)
Definition has_text (r : NodeWithScore.t) : Prop :=
  TextNode.get_text (NodeWithScore.node r) ≠ "".

(** [self.root_message.id if self.root_message else None]: the anchor
    that messages are attached to. *)
Definition anchor (self : LlamaIndexCallbackHandler) : option string :=
  match root_message self with
  | Some m => Message.id m
  | None => None
  end.

(** The [RETRIEVE] block of [on_event_end]. *)
Definition retrieve_block (event_type : CBEventType.t)
    (payload : gmap EventPayload.t PyValue) (parent_id : option string)
    : Py State unit :=
  let sources := dict_get payload EventPayload.NODES in
  if truthy sources then
    items ← lift (iterate sources);
    elements ← lift (text_elements 0 items);
    let source_refs := String.concat "\, " (imap (fun idx _ => source_name idx) items) in
    let content := "Retrieved the following sources: " +:+ source_refs in
    on_world (send (Message.mk_kwargs content event_type None (Some elements)
                      parent_id PyNone))
  else mret ().

(** [response.message.content if response else ""]. *)
Definition response_content (response : PyValue) : Result string :=
  if truthy response then
    match response with
    | PyChatResponse r => Return (ChatMessage.content (ChatResponse.message r))
    | _ => Raise AttributeError
    end
  else Return "".

(** The [LLM] block of [on_event_end]. *)
Definition llm_block (event_type : CBEventType.t)
    (payload : gmap EventPayload.t PyValue) (parent_id : option string)
    : Py State unit :=
  let response := dict_get payload EventPayload.RESPONSE in
  content ← lift (response_content response);
  on_world (send (Message.mk_kwargs content event_type None None parent_id
                    (dict_get payload EventPayload.PROMPT))).

Definition on_event_end (event_type : CBEventType.t)
    (payload : option (gmap EventPayload.t PyValue)) (event_id : string)
    : Py State unit :=
  match payload with
  | None => mret ()
  | Some payload =>
    self ← get_self;
    on_world (context_var_set (context self));;
    let parent_id := anchor self in
    (if decide (event_type = CBEventType.RETRIEVE)
     then retrieve_block event_type payload parent_id
     else mret ());;
    (if decide (event_type = CBEventType.LLM)
     then llm_block event_type payload parent_id
     else mret ())
  end.

Definition start_trace (trace_id : option string) : Py State unit :=
  self ← get_self;
  root ← on_world (session_root_message (context self));
  set_root_message root.

Definition end_trace (trace_id : option string)
    (trace_map : option (gmap string (list string))) : Py State unit :=
  set_root_message None.

(** ** Reading the outcome of a call *)

(** The messages among a list of effects. *)
Definition sent (l : list Effect) : list Message.kwargs :=
  omap (fun e => match e with Send _ m => Some m | SetContext _ => None end) l.

(** The effects a program adds to those of the state it starts from. *)
Definition new_effects {A} (m : Py State A) (s : State) : list Effect :=
  drop (length (effects s.2)) (effects (m s).2.2).

(** The messages a program emits from a state. *)
Definition emitted {A} (m : Py State A) (s : State) : list Message.kwargs :=
  sent (new_effects m s).

(** The handler a program leaves. *)
Definition handler_after {A} (m : Py State A) (s : State)
    : LlamaIndexCallbackHandler :=
  (m s).2.1.

(** A call of the framework on the handler, and a sequence of them; an
    exception goes to the framework, the handler stays as the call left
    it. *)
Inductive Call :=
| OnEventStart (event_type : CBEventType.t)
    (payload : option (gmap EventPayload.t PyValue)) (event_id : string)
| OnEventEnd (event_type : CBEventType.t)
    (payload : option (gmap EventPayload.t PyValue)) (event_id : string)
| StartTrace (trace_id : option string)
| EndTrace (trace_id : option string)
    (trace_map : option (gmap string (list string))).

Definition call (c : Call) (s : State) : State :=
  match c with
  | OnEventStart k p i => (on_event_start k p i s).2
  | OnEventEnd k p i => (on_event_end k p i s).2
  | StartTrace t => (start_trace t s).2
  | EndTrace t m => (end_trace t m s).2
  end.

Definition calls (cs : list Call) (s : State) : State :=
  foldl (fun s c => call c s) s cs.

(** ** The specification's wording of the retrieval sentence

    "Retrieved the following sources: Source 0, Source 1, ...": the names
    separated by a comma and a space. *)
Definition spec_retrieve_content (n : nat) : string :=
  "Retrieved the following sources: "
  +:+ String.concat ", " (source_name <$> seq 0 n).

(** ** Sample objects *)

Module Sample.
Definition ctx : ChainlitContext.t := ChainlitContext.mk 7.

Definition root : Message.t := Message.mk (Some "root-1").

(** The main thread: the context is set, the session has a root message. *)
Definition main_thread : World :=
  mkWorld (Some ctx) (fun _ => Session.mk (Some root)) [].

(** A worker thread of the framework: no chainlit context. *)
Definition worker_thread : World :=
  mkWorld None (fun _ => Session.mk (Some root)) [].

(** [LlamaIndexCallbackHandler()] in the main thread. *)
Definition handler : LlamaIndexCallbackHandler :=
  mkHandler None ctx DEFAULT_IGNORE DEFAULT_IGNORE.

(** [LlamaIndexCallbackHandler(event_ends_to_ignore=[CBEventType.LLM])]. *)
Definition handler_ignoring_llm : LlamaIndexCallbackHandler :=
  mkHandler None ctx DEFAULT_IGNORE [CBEventType.LLM].

(** The handler inside a trace. *)
Definition handler_in_trace : LlamaIndexCallbackHandler :=
  mkHandler (Some root) ctx DEFAULT_IGNORE DEFAULT_IGNORE.

Definition record (text : string) : NodeWithScore.t :=
  NodeWithScore.mk (TextNode.mk text).

Definition two_nodes : gmap EventPayload.t PyValue :=
  {[ EventPayload.NODES :=
       PyList [PyNodeWithScore (record "A"); PyNodeWithScore (record "B")] ]}.

Definition answer : gmap EventPayload.t PyValue :=
  {[ EventPayload.RESPONSE :=
       PyChatResponse (ChatResponse.mk (ChatMessage.mk "42"));
     EventPayload.PROMPT := PyStr "what is the answer" ]}.
(** Payloads with values of the wrong kind. *)
Definition empty_response : gmap EventPayload.t PyValue :=
  {[ EventPayload.RESPONSE := PyStr "";
     EventPayload.PROMPT := PyStr "what is the answer" ]}.

Definition text_response : gmap EventPayload.t PyValue :=
  {[ EventPayload.RESPONSE := PyStr "42" ]}.

Definition mixed_nodes : gmap EventPayload.t PyValue :=
  {[ EventPayload.NODES := PyList [PyNodeWithScore (record "A"); PyStr "B"] ]}.

Definition text_nodes : gmap EventPayload.t PyValue :=
  {[ EventPayload.NODES := PyStr "not a list of nodes" ]}.

(** A retrieved record whose text is empty. *)
Definition blank_node : gmap EventPayload.t PyValue :=
  {[ EventPayload.NODES := PyList [PyNodeWithScore (record "")] ]}.

Definition blank_then_text : gmap EventPayload.t PyValue :=
  {[ EventPayload.NODES := PyList [PyNodeWithScore (record ""); PyStr "B"] ]}.
End Sample.

(** ** Sequences of calls: vocabulary *)

(** The calls that open or close a trace. *)
Definition is_trace_call (c : Call) : bool :=
  match c with
  | StartTrace _ | EndTrace _ _ => true
  | OnEventStart _ _ _ | OnEventEnd _ _ _ => false
  end.

Definition is_start_trace (c : Call) : bool :=
  match c with
  | StartTrace _ => true
  | _ => false
  end.

Definition is_event_start (c : Call) : bool :=
  match c with
  | OnEventStart _ _ _ => true
  | _ => false
  end.

(** An effect done for the context [c]: installing [c], or a send that
    finds [c] in the ambient slot. *)
Definition under (c : ChainlitContext.t) (e : Effect) : Prop :=
  match e with
  | SetContext c' => c' = c
  | Send ambient _ => ambient = Some c
  end.

(** The event calls of a sequence, and the event starts among them. *)
Definition event_calls (cs : list Call) : list Call :=
  filter (fun c => is_trace_call c = false) cs.

Definition event_starts (cs : list Call) : list Call :=
  filter (fun c => is_event_start c = true) cs.

(** The effects and the messages a sequence of calls adds. *)
Definition effects_of_calls (cs : list Call) (s : State) : list Effect :=
  drop (length (effects s.2)) (effects (calls cs s).2).

Definition emitted_by_calls (cs : list Call) (s : State)
    : list Message.kwargs :=
  sent (effects_of_calls cs s).

(** ** Running the methods *)

Ltac py_unfold :=
  unfold mbind, Py_bind, mret, Py_ret, lift, raise, on_world, get_self,
    set_root_message, context_var_set, context_var_get, send,
    session_root_message.

Section Runs.
Variables (h : LlamaIndexCallbackHandler) (w : World).

(** The world once the handler's context is installed and the messages
    [msgs] are sent under it. *)
Definition installed (msgs : list Message.kwargs) : World :=
  mkWorld (Some (context h)) (sessions w)
    (effects w ++ SetContext (context h) :: (Send (Some (context h)) <$> msgs)).

Lemma on_event_start_run k p i :
  on_event_start k p i (h, w) =
  (Return "",
   (h, installed [Message.mk_kwargs "" k (Some 1) None None PyNone])).
Proof.
  unfold on_event_start, installed. py_unfold. cbn.
  by rewrite <- app_assoc.
Qed.

Lemma retrieve_block_run k payload :
  ∃ r msgs,
    retrieve_block k payload (anchor h) (h, installed []) = (r, (h, installed msgs))
    ∧ (msgs = [] ∨ ∃ m, msgs = [m] ∧ r = Return ()
         ∧ Message.parent_id m = anchor h ∧ Message.author m = k).
Proof.
  unfold retrieve_block. destruct (truthy _).
  - py_unfold. destruct (iterate _) as [items|e]; cbn.
    + destruct (text_elements 0 items) as [els|e]; cbn.
      * eexists _, [_]. split.
        -- unfold installed. cbn. by rewrite <- app_assoc.
        -- right. by eexists.
      * exists (Raise e), []. auto.
    + exists (Raise e), []. auto.
  - exists (Return ()), []. auto.
Qed.

Lemma llm_block_run k payload :
  ∃ r msgs,
    llm_block k payload (anchor h) (h, installed []) = (r, (h, installed msgs))
    ∧ (msgs = [] ∨ ∃ m, msgs = [m] ∧ r = Return ()
         ∧ Message.parent_id m = anchor h ∧ Message.author m = k).
Proof.
  unfold llm_block. py_unfold.
  destruct (response_content _) as [c|e]; cbn.
  - eexists _, [_]. split.
    + unfold installed. cbn. by rewrite <- app_assoc.
    + right. by eexists.
  - exists (Raise e), []. auto.
Qed.

(** Every call of [on_event_end] with a payload: the context is
    installed, then at most one message is sent, attached to the
    anchor; the handler is as before. *)
Lemma on_event_end_run k payload i :
  ∃ r msgs,
    on_event_end k (Some payload) i (h, w) = (r, (h, installed msgs))
    ∧ (msgs = [] ∨ ∃ m, msgs = [m]
         ∧ Message.parent_id m = anchor h ∧ Message.author m = k).
Proof.
  unfold on_event_end.
  change ((self ← get_self;
           on_world (context_var_set (context self));; _) (h, w))
    with (((if decide (k = CBEventType.RETRIEVE)
            then retrieve_block k payload (anchor h) else mret ());;
           (if decide (k = CBEventType.LLM)
            then llm_block k payload (anchor h) else mret ()))
            (h, installed [])).
  destruct (decide (k = CBEventType.RETRIEVE)) as [->|Hr].
  - destruct (retrieve_block_run CBEventType.RETRIEVE payload)
      as (r & msgs & Hrun & Hmsgs).
    unfold mbind at 1, Py_bind at 1. rewrite Hrun.
    destruct r as [[]|e].
    + rewrite decide_False by done. exists (Return ()), msgs. split; [done|].
      destruct Hmsgs as [->|(m & -> & _ & ? & ?)]; eauto.
    + exists (Raise e), msgs. split; [done|].
      destruct Hmsgs as [->|(m & -> & _ & ? & ?)]; eauto.
  - unfold mbind at 1, Py_bind at 1. cbn.
    destruct (decide (k = CBEventType.LLM)) as [->|Hl].
    + destruct (llm_block_run CBEventType.LLM payload)
        as (r & msgs & Hrun & Hmsgs).
      exists r, msgs. split; [done|].
      destruct Hmsgs as [->|(m & -> & _ & ? & ?)]; eauto.
    + exists (Return ()), []. auto.
Qed.
End Runs.

Lemma sent_sends c msgs : sent (Send c <$> msgs) = msgs.
Proof. induction msgs as [|m msgs IH]; cbn; [done | by f_equal]. Qed.

Lemma new_effects_installed {A} (prog : Py State A) h w h' msgs :
  (prog (h, w)).2 = (h', installed h w msgs) →
  new_effects prog (h, w) =
  SetContext (context h) :: (Send (Some (context h)) <$> msgs).
Proof.
  intros Hrun. unfold new_effects. rewrite Hrun. cbn.
  by rewrite drop_app_length.
Qed.

Lemma emitted_installed {A} (prog : Py State A) h w h' msgs :
  (prog (h, w)).2 = (h', installed h w msgs) →
  emitted prog (h, w) = msgs.
Proof.
  intros Hrun. unfold emitted.
  rewrite (new_effects_installed _ _ _ _ _ Hrun). cbn. apply sent_sends.
Qed.

Lemma emitted_unchanged {A} (prog : Py State A) h w h' :
  (prog (h, w)).2 = (h', w) → emitted prog (h, w) = [].
Proof.
  intros Hrun. unfold emitted, new_effects. rewrite Hrun. cbn.
  by rewrite drop_all.
Qed.

Lemma Text_new_has_text name (r : NodeWithScore.t) :
  has_text r →
  Text_new name (TextNode.get_text (NodeWithScore.node r))
  = Return (Text.mk name (TextNode.get_text (NodeWithScore.node r))).
Proof.
  unfold has_text, Text_new. intros Htext.
  by destruct (String.eqb_spec (TextNode.get_text (NodeWithScore.node r)) "").
Qed.

(** [enumerate] numbers the items from the start index on. *)
Lemma text_elements_records idx (records : list NodeWithScore.t) :
  Forall has_text records →
  text_elements idx (ItemValue <$> (PyNodeWithScore <$> records)) =
  Return (imap (fun j r =>
                  Text.mk (source_name (idx + j))
                          (TextNode.get_text (NodeWithScore.node r)))
               records).
Proof.
  intros Htext. revert idx.
  induction Htext as [|r records Hr Htext IH]; intros idx; cbn; [done|].
  rewrite (Text_new_has_text _ r Hr), IH. cbn.
  rewrite Nat.add_0_r. do 2 f_equal.
  apply imap_ext. intros j x _. cbn. f_equal. f_equal. lia.
Qed.

Lemma source_refs_seq {A} idx (items : list A) :
  imap (fun j _ => source_name (idx + j)) items =
  source_name <$> seq idx (length items).
Proof.
  revert idx. induction items as [|x items IH]; intros idx; cbn; [done|].
  rewrite Nat.add_0_r. f_equal. rewrite <- IH.
  apply imap_ext. intros j y _. cbn. f_equal. lia.
Qed.

Lemma text_elements_records_0 (records : list NodeWithScore.t) :
  Forall has_text records →
  text_elements 0 (ItemValue <$> (PyNodeWithScore <$> records)) =
  Return (imap (fun idx r =>
                  Text.mk (source_name idx)
                          (TextNode.get_text (NodeWithScore.node r)))
               records).
Proof. apply (text_elements_records 0). Qed.

Lemma source_refs_seq_0 {A} (items : list A) :
  imap (fun idx _ => source_name idx) items =
  source_name <$> seq 0 (length items).
Proof. apply (source_refs_seq 0). Qed.

Lemma truthy_records (records : list NodeWithScore.t) :
  records ≠ [] → truthy (PyList (PyNodeWithScore <$> records)) = true.
Proof. by destruct records. Qed.

(** [on_event_end] with a payload: the context is installed, then the
    two blocks run one after the other. *)
Lemma on_event_end_blocks h w k payload i :
  on_event_end k (Some payload) i (h, w) =
  ((if decide (k = CBEventType.RETRIEVE)
    then retrieve_block k payload (anchor h) else mret ());;
   (if decide (k = CBEventType.LLM)
    then llm_block k payload (anchor h) else mret ()))
    (h, installed h w []).
Proof. reflexivity. Qed.

(** The retrieval block on a non-empty list of records. *)
Lemma retrieve_block_records h w k payload parent_id
    (records : list NodeWithScore.t) :
  payload !! EventPayload.NODES = Some (PyList (PyNodeWithScore <$> records)) →
  records ≠ [] →
  Forall has_text records →
  retrieve_block k payload parent_id (h, installed h w []) =
  (Return (),
   (h, installed h w
         [Message.mk_kwargs
            ("Retrieved the following sources: "
             +:+ String.concat "\, " (source_name <$> seq 0 (length records)))
            k None
            (Some (imap (fun idx r =>
                           Text.mk (source_name idx)
                                   (TextNode.get_text (NodeWithScore.node r)))
                        records))
            parent_id PyNone])).
Proof.
  intros Hnodes Hne Htext. unfold retrieve_block, dict_get.
  rewrite Hnodes. cbn [from_option id]. rewrite truthy_records by done.
  cbn [iterate]. py_unfold.
  rewrite text_elements_records_0, source_refs_seq_0, !length_fmap by done.
  unfold installed. cbn. by rewrite <- app_assoc.
Qed.

(** The LLM block on a chat response, or without response. *)
Lemma llm_block_response h w k payload parent_id
    (response : option ChatResponse.t) :
  payload !! EventPayload.RESPONSE = PyChatResponse <$> response →
  llm_block k payload parent_id (h, installed h w []) =
  (Return (),
   (h, installed h w
         [Message.mk_kwargs
            (from_option
               (fun r => ChatMessage.content (ChatResponse.message r)) ""
               response)
            k None None parent_id (dict_get payload EventPayload.PROMPT)])).
Proof.
  intros Hresponse. unfold llm_block.
  replace (dict_get payload EventPayload.RESPONSE)
    with (from_option PyChatResponse PyNone response)
    by (unfold dict_get; rewrite Hresponse; by destruct response).
  py_unfold. unfold installed.
  destruct response as [r|]; cbn; by rewrite <- app_assoc.
Qed.

(** [on_event_end] never looks at the handler's two lists. *)
Lemma on_event_end_lists_unread root ctx starts ends starts' ends' w k p i :
  (on_event_end k p i (mkHandler root ctx starts ends, w)).1 =
  (on_event_end k p i (mkHandler root ctx starts' ends', w)).1
  ∧ (on_event_end k p i (mkHandler root ctx starts ends, w)).2.2 =
    (on_event_end k p i (mkHandler root ctx starts' ends', w)).2.2.
Proof.
  destruct p as [payload|]; [|done].
  unfold on_event_end, retrieve_block, llm_block, anchor. py_unfold. cbn.
  destruct (decide (k = CBEventType.RETRIEVE)) as [->|Hr]; cbn.
  - destruct (truthy _); cbn; [|done].
    destruct (iterate _) as [items|e]; cbn; [|done].
    by destruct (text_elements 0 items).
  - destruct (decide (k = CBEventType.LLM)) as [->|Hl]; cbn; [|done].
    by destruct (response_content _).
Qed.

(** ** The claims *)

(** C1, as stated, fails: [CHUNKING] is in the start-ignore list of a
    handler built with the defaults, and [on_event_start] on it emits the
    placeholder message all the same. *)
Lemma start_ignore_counterexample :
  __init__ None None Sample.main_thread
    = (Return Sample.handler, Sample.main_thread)
  ∧ CBEventType.CHUNKING ∈ event_starts_to_ignore Sample.handler
  ∧ emitted (on_event_start CBEventType.CHUNKING None "")
      (Sample.handler, Sample.worker_thread)
    = [Message.mk_kwargs "" CBEventType.CHUNKING (Some 1) None None PyNone].
Proof.
  split; [reflexivity|]. split; [apply list_elem_of_here|]. reflexivity.
Qed.

(** C1, amended: for every event kind, in the start-ignore list or not,
    [on_event_start] installs the captured context in the ambient slot,
    then emits exactly one placeholder message (author the kind, indent
    1, empty content, no parent) under that context, and returns the
    empty string; the handler is left as it was. The method does not
    read the list: nothing of the outcome depends on it. *)
Theorem on_event_start_emits_placeholder h w k p i :
  on_event_start k p i (h, w)
  = (Return "",
     (h,
      mkWorld (Some (context h)) (sessions w)
        (effects w
         ++ [SetContext (context h);
             Send (Some (context h))
               (Message.mk_kwargs "" k (Some 1) None None PyNone)])))
  ∧ new_effects (on_event_start k p i) (h, w)
    = [SetContext (context h);
       Send (Some (context h))
         (Message.mk_kwargs "" k (Some 1) None None PyNone)]
  ∧ emitted (on_event_start k p i) (h, w)
    = [Message.mk_kwargs "" k (Some 1) None None PyNone].
Proof.
  split; [by rewrite on_event_start_run|].
  split.
  - rewrite (new_effects_installed _ h w h
               [Message.mk_kwargs "" k (Some 1) None None PyNone]);
      [done | by rewrite on_event_start_run].
  - apply (emitted_installed _ h w h). by rewrite on_event_start_run.
Qed.

(** C2, as stated, fails: a handler built with
    [event_ends_to_ignore=[CBEventType.LLM]] emits a message at the end
    of an [LLM] event, here with an empty payload. *)
Lemma end_ignore_counterexample :
  __init__ None (Some [CBEventType.LLM]) Sample.main_thread
    = (Return Sample.handler_ignoring_llm, Sample.main_thread)
  ∧ CBEventType.LLM ∈ event_ends_to_ignore Sample.handler_ignoring_llm
  ∧ emitted (on_event_end CBEventType.LLM (Some ∅) "")
      (Sample.handler_ignoring_llm, Sample.worker_thread)
    = [Message.mk_kwargs "" CBEventType.LLM None None None PyNone].
Proof.
  split; [reflexivity|]. split; [apply list_elem_of_here|]. reflexivity.
Qed.

(** C2, amended: [on_event_end] does not consult the end-ignore list:
    for a kind in the list, the outcome of the call (result, world,
    messages) is the one a handler with any other pair of lists gives,
    so an ignored [RETRIEVE] or [LLM] event is handled like any other;
    and when the kind in the list is neither [RETRIEVE] nor [LLM],
    [on_event_end] emits no message and raises nothing, whatever the
    payload. *)
Theorem on_event_end_ignored_kind h w k p i :
  k ∈ event_ends_to_ignore h →
  (∀ starts ends,
     let h' := mkHandler (root_message h) (context h) starts ends in
     (on_event_end k p i (h', w)).1 = (on_event_end k p i (h, w)).1
     ∧ (on_event_end k p i (h', w)).2.2 = (on_event_end k p i (h, w)).2.2
     ∧ emitted (on_event_end k p i) (h', w)
       = emitted (on_event_end k p i) (h, w))
  ∧ (k ≠ CBEventType.RETRIEVE →
     k ≠ CBEventType.LLM →
     (on_event_end k p i (h, w)).1 = Return ()
     ∧ emitted (on_event_end k p i) (h, w) = []).
Proof.
  intros _. split.
  - intros starts ends. cbn zeta. destruct h as [root ctx starts0 ends0].
    cbn [root_message context].
    destruct (on_event_end_lists_unread root ctx starts ends starts0 ends0
                w k p i) as [Hres Hworld].
    split; [done|]. split; [done|].
    unfold emitted, new_effects. cbn [snd]. by rewrite Hworld.
  - intros Hr Hl. destruct p as [payload|].
    + assert (Hrun : on_event_end k (Some payload) i (h, w)
                     = (Return (), (h, installed h w []))).
      { unfold on_event_end. py_unfold. cbn.
        by rewrite !decide_False by done. }
      split; [by rewrite Hrun|].
      apply (emitted_installed _ h w h). by rewrite Hrun.
    + split; [done|]. by apply (emitted_unchanged _ h w h).
Qed.

Lemma on_event_end_ignored_kind_witness :
  (∀ starts ends,
     let h' := mkHandler (root_message Sample.handler)
                 (context Sample.handler) starts ends in
     (on_event_end CBEventType.CHUNKING (Some Sample.answer) ""
        (h', Sample.worker_thread)).1
     = (on_event_end CBEventType.CHUNKING (Some Sample.answer) ""
          (Sample.handler, Sample.worker_thread)).1
     ∧ (on_event_end CBEventType.CHUNKING (Some Sample.answer) ""
          (h', Sample.worker_thread)).2.2
       = (on_event_end CBEventType.CHUNKING (Some Sample.answer) ""
            (Sample.handler, Sample.worker_thread)).2.2
     ∧ emitted (on_event_end CBEventType.CHUNKING (Some Sample.answer) "")
         (h', Sample.worker_thread)
       = emitted (on_event_end CBEventType.CHUNKING (Some Sample.answer) "")
           (Sample.handler, Sample.worker_thread))
  ∧ (on_event_end CBEventType.CHUNKING (Some Sample.answer) ""
       (Sample.handler, Sample.worker_thread)).1 = Return ()
  ∧ emitted (on_event_end CBEventType.CHUNKING (Some Sample.answer) "")
      (Sample.handler, Sample.worker_thread) = [].
Proof.
  split.
  - apply (proj1 (on_event_end_ignored_kind Sample.handler
                    Sample.worker_thread CBEventType.CHUNKING
                    (Some Sample.answer) "" (list_elem_of_here _ _))).
  - apply (proj2 (on_event_end_ignored_kind Sample.handler
                    Sample.worker_thread CBEventType.CHUNKING
                    (Some Sample.answer) "" (list_elem_of_here _ _))).
    + discriminate.
    + discriminate.
Defined.

Example source_name_0 : source_name 0 = "Source 0".
Proof. reflexivity. Qed.

Example source_name_12 : source_name 12 = "Source 12".
Proof. reflexivity. Qed.

(** C3, as stated, fails twice. On the sentence: with two retrieved
    records the names are joined by a backslash, a comma and a space, so
    the content is not the text "Retrieved the following sources: Source
    0, Source 1" of the specification. On the emission: with a record
    whose text is empty, the attachment is refused with [ValueError] and
    no message is emitted. *)
Lemma retrieve_content_counterexample :
  (Message.content <$>
     emitted (on_event_end CBEventType.RETRIEVE (Some Sample.two_nodes) "")
       (Sample.handler_in_trace, Sample.worker_thread)
   = ["Retrieved the following sources: Source 0\, Source 1"]
   ∧ spec_retrieve_content 2
     = "Retrieved the following sources: Source 0, Source 1"
   ∧ Message.content <$>
       emitted (on_event_end CBEventType.RETRIEVE (Some Sample.two_nodes) "")
         (Sample.handler_in_trace, Sample.worker_thread)
     ≠ [spec_retrieve_content 2])
  ∧ (Sample.blank_node !! EventPayload.NODES
     = Some (PyList [PyNodeWithScore (Sample.record "")])
     ∧ (on_event_end CBEventType.RETRIEVE (Some Sample.blank_node) ""
          (Sample.handler_in_trace, Sample.worker_thread)).1
       = Raise ValueError
     ∧ emitted (on_event_end CBEventType.RETRIEVE (Some Sample.blank_node) "")
         (Sample.handler_in_trace, Sample.worker_thread) = []).
Proof.
  split.
  - split; [reflexivity|]. split; [reflexivity|]. discriminate.
  - split; [reflexivity|]. split; reflexivity.
Qed.

(** C3, amended: for every end-phase [RETRIEVE] event whose payload maps
    the nodes key to a non-empty sequence of n retrieved records, each
    with a non-empty text, [on_event_end] emits exactly one message
    carrying exactly n attachments named "Source 0" to "Source n-1" in
    record order, each with its record's text; the content is "Retrieved
    the following sources: " followed by the n names joined by a
    backslash, a comma and a space; the author is the event kind and the
    parent is the anchor ([None] outside a trace). *)
Theorem retrieve_emits_sources h w payload (records : list NodeWithScore.t) i :
  payload !! EventPayload.NODES = Some (PyList (PyNodeWithScore <$> records)) →
  records ≠ [] →
  Forall has_text records →
  ∃ elements,
    (on_event_end CBEventType.RETRIEVE (Some payload) i (h, w)).1 = Return ()
    ∧ emitted (on_event_end CBEventType.RETRIEVE (Some payload) i) (h, w)
      = [Message.mk_kwargs
           ("Retrieved the following sources: "
            +:+ String.concat "\, " (source_name <$> seq 0 (length records)))
           CBEventType.RETRIEVE None (Some elements) (anchor h) PyNone]
    ∧ length elements = length records
    ∧ ∀ idx r,
        records !! idx = Some r →
        elements !! idx
        = Some (Text.mk (source_name idx)
                        (TextNode.get_text (NodeWithScore.node r))).
Proof.
  intros Hnodes Hne Htext.
  pose proof (on_event_end_blocks h w CBEventType.RETRIEVE payload i) as Hrun.
  rewrite (decide_True (P := CBEventType.RETRIEVE = CBEventType.RETRIEVE))
    in Hrun by done.
  unfold mbind at 1, Py_bind at 1 in Hrun.
  rewrite (retrieve_block_records h w _ _ _ records Hnodes Hne Htext) in Hrun.
  rewrite (decide_False (P := CBEventType.RETRIEVE = CBEventType.LLM))
    in Hrun by done.
  eexists.
  split; [by rewrite Hrun|].
  split; [apply (emitted_installed _ h w h); by rewrite Hrun|].
  split; [apply length_imap|].
  intros idx r Hidx. rewrite list_lookup_imap, Hidx. reflexivity.
Qed.

Lemma retrieve_emits_sources_witness :
  ∃ elements,
    (on_event_end CBEventType.RETRIEVE (Some Sample.two_nodes) ""
       (Sample.handler_in_trace, Sample.worker_thread)).1 = Return ()
    ∧ emitted (on_event_end CBEventType.RETRIEVE (Some Sample.two_nodes) "")
        (Sample.handler_in_trace, Sample.worker_thread)
      = [Message.mk_kwargs
           ("Retrieved the following sources: "
            +:+ String.concat "\, " (source_name <$> seq 0 2))
           CBEventType.RETRIEVE None (Some elements) (Some "root-1") PyNone]
    ∧ length elements = 2
    ∧ ∀ idx r,
        [Sample.record "A"; Sample.record "B"] !! idx = Some r →
        elements !! idx
        = Some (Text.mk (source_name idx)
                        (TextNode.get_text (NodeWithScore.node r))).
Proof.
  apply (retrieve_emits_sources Sample.handler_in_trace Sample.worker_thread
           Sample.two_nodes [Sample.record "A"; Sample.record "B"] "").
  - reflexivity.
  - discriminate.
  - repeat (apply Forall_cons; split; [discriminate|]). apply Forall_nil_2.
Defined.

(** C4, as stated, fails for [on_event_end]: called with no payload from
    a thread without context, it returns before the installation; the
    ambient slot is still unset afterwards and nothing was done. *)
Lemma null_payload_context_counterexample :
  context_var
    (on_event_end CBEventType.LLM None ""
       (Sample.handler, Sample.worker_thread)).2.2 = None
  ∧ context_var
      (on_event_end CBEventType.LLM None ""
         (Sample.handler, Sample.worker_thread)).2.2
    ≠ Some (context Sample.handler)
  ∧ new_effects (on_event_end CBEventType.LLM None "")
      (Sample.handler, Sample.worker_thread) = [].
Proof. split; [reflexivity|]. split; [discriminate|reflexivity]. Qed.

(** C4, amended: on every invocation of [on_event_start], and on every
    invocation of [on_event_end] with a payload, installing the context
    captured at construction is the first thing the call does: every
    other effect comes after it, every message is sent under that
    context, and the slot holds it when the call is over. An
    [on_event_end] without payload returns before the installation and
    leaves the world as it is. *)
Theorem context_installed_first h w k p payload i :
  (∃ m,
     effects (on_event_start k p i (h, w)).2.2
     = (effects w
        ++ [SetContext (context h); Send (Some (context h)) m])%list
     ∧ context_var (on_event_start k p i (h, w)).2.2 = Some (context h))
  ∧ (∃ msgs,
       effects (on_event_end k (Some payload) i (h, w)).2.2
       = (effects w
          ++ SetContext (context h) :: (Send (Some (context h)) <$> msgs))%list
       ∧ context_var (on_event_end k (Some payload) i (h, w)).2.2
         = Some (context h))
  ∧ (on_event_end k None i (h, w)).2 = (h, w).
Proof.
  split; [|split].
  - rewrite on_event_start_run. by eexists.
  - destruct (on_event_end_run h w k payload i) as (r & msgs & Hrun & _).
    rewrite Hrun. by exists msgs.
  - reflexivity.
Qed.

(** C5: whatever calls came before, after [end_trace] the anchor is
    [None]; after [start_trace] with a root message in the session the
    anchor is that message's identifier; after [start_trace] with no
    root message in the session the anchor is [None]. *)
Theorem trace_anchor cs s trace_id trace_map :
  let s' := calls cs s in
  let session := sessions s'.2 (ChainlitContext.session (context s'.1)) in
  anchor (handler_after (end_trace trace_id trace_map) s') = None
  ∧ (∀ m, Session.root_message session = Some m →
          anchor (handler_after (start_trace trace_id) s') = Message.id m)
  ∧ (Session.root_message session = None →
     anchor (handler_after (start_trace trace_id) s') = None).
Proof.
  cbn zeta. destruct (calls cs s) as [h w]. cbn [fst snd].
  split; [reflexivity|].
  unfold handler_after, start_trace, anchor. py_unfold. cbn.
  split.
  - by intros m ->.
  - by intros ->.
Qed.

Lemma trace_anchor_witness :
  let s' :=
    calls [OnEventStart CBEventType.LLM None "";
           OnEventEnd CBEventType.LLM (Some Sample.answer) ""]
          (Sample.handler, Sample.worker_thread) in
  Session.root_message
    (sessions s'.2 (ChainlitContext.session (context s'.1)))
  = Some Sample.root
  ∧ anchor (handler_after (start_trace None) s') = Some "root-1".
Proof.
  cbn zeta. split; [reflexivity|].
  apply (proj1 (proj2 (trace_anchor
           [OnEventStart CBEventType.LLM None "";
            OnEventEnd CBEventType.LLM (Some Sample.answer) ""]
           (Sample.handler, Sample.worker_thread) None None)) Sample.root).
  reflexivity.
Defined.

(** C6, as stated, fails: an end-phase [LLM] event with a payload whose
    response is a string (not a chat response) makes [on_event_end]
    raise [AttributeError] on [response.message], and no message is
    emitted. *)
Lemma llm_text_response_counterexample :
  Sample.text_response !! EventPayload.RESPONSE = Some (PyStr "42")
  ∧ (on_event_end CBEventType.LLM (Some Sample.text_response) ""
       (Sample.handler_in_trace, Sample.worker_thread)).1
    = Raise AttributeError
  ∧ emitted (on_event_end CBEventType.LLM (Some Sample.text_response) "")
      (Sample.handler_in_trace, Sample.worker_thread) = [].
Proof. split; [reflexivity|]. split; reflexivity. Qed.

(** C6, amended: for every end-phase [LLM] event with a payload whose
    response is a chat response, or whose response key is absent,
    [on_event_end] emits exactly one message: its content is the content
    of the response's message, or the empty string when the response key
    is absent (the message is still emitted); the prompt of the payload
    rides along as auxiliary data; the parent is the anchor. *)
Theorem llm_emits_response h w payload (response : option ChatResponse.t) i :
  payload !! EventPayload.RESPONSE = PyChatResponse <$> response →
  (on_event_end CBEventType.LLM (Some payload) i (h, w)).1 = Return ()
  ∧ emitted (on_event_end CBEventType.LLM (Some payload) i) (h, w)
    = [Message.mk_kwargs
         (from_option
            (fun r => ChatMessage.content (ChatResponse.message r)) ""
            response)
         CBEventType.LLM None None (anchor h)
         (dict_get payload EventPayload.PROMPT)].
Proof.
  intros Hresponse.
  assert (Hrun : on_event_end CBEventType.LLM (Some payload) i (h, w)
    = (Return (),
       (h, installed h w
             [Message.mk_kwargs
                (from_option
                   (fun r => ChatMessage.content (ChatResponse.message r)) ""
                   response)
                CBEventType.LLM None None (anchor h)
                (dict_get payload EventPayload.PROMPT)]))).
  { rewrite on_event_end_blocks.
    rewrite (decide_False (P := CBEventType.LLM = CBEventType.RETRIEVE))
      by done.
    rewrite (decide_True (P := CBEventType.LLM = CBEventType.LLM)) by done.
    unfold mbind at 1, Py_bind at 1. cbn [mret Py_ret].
    by apply llm_block_response. }
  split; [by rewrite Hrun|].
  apply (emitted_installed _ h w h). by rewrite Hrun.
Qed.

Lemma llm_emits_response_witness :
  (on_event_end CBEventType.LLM (Some Sample.answer) ""
     (Sample.handler_in_trace, Sample.worker_thread)).1 = Return ()
  ∧ emitted (on_event_end CBEventType.LLM (Some Sample.answer) "")
      (Sample.handler_in_trace, Sample.worker_thread)
    = [Message.mk_kwargs "42" CBEventType.LLM None None (Some "root-1")
         (PyStr "what is the answer")].
Proof.
  apply (llm_emits_response Sample.handler_in_trace Sample.worker_thread
           Sample.answer
           (Some (ChatResponse.mk (ChatMessage.mk "42"))) "").
  reflexivity.
Defined.

(** The response key absent: the message is still emitted, with the
    empty string as content. *)
Example llm_without_response :
  emitted (on_event_end CBEventType.LLM (Some ∅) "")
    (Sample.handler_in_trace, Sample.worker_thread)
  = [Message.mk_kwargs "" CBEventType.LLM None None (Some "root-1") PyNone].
Proof. reflexivity. Qed.

(** The handler after [on_event_end] is the handler before. *)
Lemma on_event_end_handler h w k p i :
  handler_after (on_event_end k p i) (h, w) = h.
Proof.
  unfold handler_after. destruct p as [payload|]; [|done].
  destruct (on_event_end_run h w k payload i) as (r & msgs & Hrun & _).
  by rewrite Hrun.
Qed.

(** The messages of one [on_event_end]: none, or one under the anchor. *)
Lemma on_event_end_emitted h w k p i :
  emitted (on_event_end k p i) (h, w) = []
  ∨ ∃ m, emitted (on_event_end k p i) (h, w) = [m]
         ∧ Message.parent_id m = anchor h ∧ Message.author m = k.
Proof.
  destruct p as [payload|].
  - destruct (on_event_end_run h w k payload i) as (r & msgs & Hrun & Hmsgs).
    rewrite (emitted_installed _ h w h msgs) by (by rewrite Hrun).
    destruct Hmsgs as [->|(m & -> & ? & ?)]; eauto.
  - left. by apply (emitted_unchanged _ h w h).
Qed.

(** C7: an [on_event_end] without payload, and an [on_event_end] for a
    kind that is neither [RETRIEVE] nor [LLM], emits no message, raises
    nothing and leaves the handler (anchor, lists, captured context) as
    it was. *)
Theorem on_event_end_noop h w k p i :
  p = None ∨ (k ≠ CBEventType.RETRIEVE ∧ k ≠ CBEventType.LLM) →
  (on_event_end k p i (h, w)).1 = Return ()
  ∧ emitted (on_event_end k p i) (h, w) = []
  ∧ handler_after (on_event_end k p i) (h, w) = h.
Proof.
  intros Hcase.
  split; [|split; [|apply on_event_end_handler]].
  - destruct p as [payload|]; [|done].
    destruct Hcase as [?|[Hr Hl]]; [done|].
    rewrite on_event_end_blocks.
    by rewrite !decide_False by done.
  - destruct p as [payload|]; [|by apply (emitted_unchanged _ h w h)].
    destruct Hcase as [?|[Hr Hl]]; [done|].
    apply (emitted_installed _ h w h).
    rewrite on_event_end_blocks.
    by rewrite !decide_False by done.
Qed.

Lemma on_event_end_noop_witness :
  ((on_event_end CBEventType.LLM None ""
      (Sample.handler_in_trace, Sample.worker_thread)).1 = Return ()
   ∧ emitted (on_event_end CBEventType.LLM None "")
       (Sample.handler_in_trace, Sample.worker_thread) = []
   ∧ handler_after (on_event_end CBEventType.LLM None "")
       (Sample.handler_in_trace, Sample.worker_thread)
     = Sample.handler_in_trace)
  ∧ ((on_event_end CBEventType.QUERY (Some Sample.two_nodes) ""
        (Sample.handler_in_trace, Sample.worker_thread)).1 = Return ()
     ∧ emitted (on_event_end CBEventType.QUERY (Some Sample.two_nodes) "")
         (Sample.handler_in_trace, Sample.worker_thread) = []
     ∧ handler_after (on_event_end CBEventType.QUERY (Some Sample.two_nodes) "")
         (Sample.handler_in_trace, Sample.worker_thread)
       = Sample.handler_in_trace).
Proof.
  split.
  - apply on_event_end_noop. left. reflexivity.
  - apply on_event_end_noop. right. split; discriminate.
Defined.

(** C8: every message emitted by [on_event_end] has as parent the anchor
    the handler holds during the call (the call does not change it); when
    no trace is active, the parent is [None]. *)
Theorem emitted_parent_is_anchor h w k p i m :
  m ∈ emitted (on_event_end k p i) (h, w) →
  anchor (handler_after (on_event_end k p i) (h, w)) = anchor h
  ∧ Message.parent_id m = anchor h
  ∧ (root_message h = None → Message.parent_id m = None).
Proof.
  intros Hm. rewrite on_event_end_handler. split; [done|].
  assert (Hparent : Message.parent_id m = anchor h).
  { destruct (on_event_end_emitted h w k p i) as [Hnone|(m' & Hone & Hp & _)].
    - rewrite Hnone in Hm. by apply elem_of_nil in Hm.
    - rewrite Hone in Hm. apply list_elem_of_singleton in Hm. by subst. }
  split; [done|].
  intros Hroot. rewrite Hparent. unfold anchor. by rewrite Hroot.
Qed.

Lemma emitted_parent_is_anchor_witness :
  let m := Message.mk_kwargs "42" CBEventType.LLM None None (Some "root-1")
             (PyStr "what is the answer") in
  anchor (handler_after (on_event_end CBEventType.LLM (Some Sample.answer) "")
            (Sample.handler_in_trace, Sample.worker_thread))
  = anchor Sample.handler_in_trace
  ∧ Message.parent_id m = anchor Sample.handler_in_trace
  ∧ (root_message Sample.handler_in_trace = None → Message.parent_id m = None).
Proof.
  cbn zeta.
  apply (emitted_parent_is_anchor Sample.handler_in_trace Sample.worker_thread
           CBEventType.LLM (Some Sample.answer) "").
  apply list_elem_of_here.
Defined.

(** One call keeps the two lists and the captured context. *)
Lemma call_frame c s :
  event_starts_to_ignore (call c s).1 = event_starts_to_ignore s.1
  ∧ event_ends_to_ignore (call c s).1 = event_ends_to_ignore s.1
  ∧ context (call c s).1 = context s.1.
Proof.
  destruct s as [h w]. destruct c as [k p i|k p i|t|t tm]; cbn [call].
  - by rewrite on_event_start_run.
  - pose proof (on_event_end_handler h w k p i) as Hh.
    unfold handler_after in Hh. by rewrite Hh.
  - done.
  - done.
Qed.

(** C9: no sequence of calls on the handler changes the two ignore lists
    or the captured context; [start_trace] and [end_trace] change
    [root_message] only: the other three fields of the handler stay, and
    so does the world. *)
Theorem handler_frame cs s trace_id trace_map :
  (event_starts_to_ignore (calls cs s).1 = event_starts_to_ignore s.1
   ∧ event_ends_to_ignore (calls cs s).1 = event_ends_to_ignore s.1
   ∧ context (calls cs s).1 = context s.1)
  ∧ (start_trace trace_id s).2
    = (mkHandler
         (Session.root_message
            (sessions s.2 (ChainlitContext.session (context s.1))))
         (context s.1) (event_starts_to_ignore s.1)
         (event_ends_to_ignore s.1),
       s.2)
  ∧ (end_trace trace_id trace_map s).2
    = (mkHandler None (context s.1) (event_starts_to_ignore s.1)
         (event_ends_to_ignore s.1),
       s.2).
Proof.
  split; [|split].
  - revert s. induction cs as [|c cs IH]; intros s; [done|].
    unfold calls in *. cbn [foldl].
    destruct (IH (call c s)) as (-> & -> & ->).
    apply call_frame.
  - by destruct s as [h [cv ss es]].
  - by destruct s as [h w].
Qed.

(** C10: one call of [on_event_end] emits at most one message, whatever
    the kind and the payload: the kind cannot be both [RETRIEVE] and
    [LLM], and each block sends at most once. *)
Theorem on_event_end_at_most_one h w k p i :
  (length (emitted (on_event_end k p i) (h, w)) ≤ 1)%nat.
Proof.
  destruct (on_event_end_emitted h w k p i) as [->|(m & -> & _)]; cbn; lia.
Qed.

(** ** Further properties of the handler *)

(** *** [on_event_end], block by block *)

Lemma on_event_end_retrieve h w payload i :
  on_event_end CBEventType.RETRIEVE (Some payload) i (h, w) =
  retrieve_block CBEventType.RETRIEVE payload (anchor h) (h, installed h w []).
Proof.
  rewrite on_event_end_blocks.
  rewrite (decide_True (P := CBEventType.RETRIEVE = CBEventType.RETRIEVE))
    by done.
  rewrite (decide_False (P := CBEventType.RETRIEVE = CBEventType.LLM))
    by done.
  unfold mbind, Py_bind.
  by destruct (retrieve_block _ _ _ _) as [[[]|e] s'].
Qed.

Lemma on_event_end_llm h w payload i :
  on_event_end CBEventType.LLM (Some payload) i (h, w) =
  llm_block CBEventType.LLM payload (anchor h) (h, installed h w []).
Proof.
  rewrite on_event_end_blocks.
  rewrite (decide_False (P := CBEventType.LLM = CBEventType.RETRIEVE))
    by done.
  by rewrite (decide_True (P := CBEventType.LLM = CBEventType.LLM)) by done.
Qed.

Lemma on_event_end_other h w k payload i :
  k ≠ CBEventType.RETRIEVE → k ≠ CBEventType.LLM →
  on_event_end k (Some payload) i (h, w) = (Return (), (h, installed h w [])).
Proof.
  intros Hr Hl. rewrite on_event_end_blocks.
  by rewrite !decide_False by done.
Qed.

Lemma retrieve_block_eq h w k payload parent_id :
  retrieve_block k payload parent_id (h, installed h w []) =
  if truthy (dict_get payload EventPayload.NODES) then
    match iterate (dict_get payload EventPayload.NODES) with
    | Raise e => (Raise e, (h, installed h w []))
    | Return items =>
      match text_elements 0 items with
      | Raise e => (Raise e, (h, installed h w []))
      | Return elements =>
        (Return (),
         (h, installed h w
               [Message.mk_kwargs
                  ("Retrieved the following sources: "
                   +:+ String.concat "\, "
                         (imap (fun idx _ => source_name idx) items))
                  k None (Some elements) parent_id PyNone]))
      end
    end
  else (Return (), (h, installed h w [])).
Proof.
  unfold retrieve_block. destruct (truthy _); [|done].
  py_unfold. destruct (iterate _) as [items|e]; cbn; [|done].
  destruct (text_elements 0 items) as [els|e]; cbn; [|done].
  unfold installed. cbn. by rewrite <- app_assoc.
Qed.

Lemma llm_block_eq h w k payload parent_id :
  llm_block k payload parent_id (h, installed h w []) =
  match response_content (dict_get payload EventPayload.RESPONSE) with
  | Return content =>
    (Return (),
     (h, installed h w
           [Message.mk_kwargs content k None None parent_id
              (dict_get payload EventPayload.PROMPT)]))
  | Raise e => (Raise e, (h, installed h w []))
  end.
Proof.
  unfold llm_block. py_unfold.
  destruct (response_content _) as [c|e]; cbn; [|done].
  unfold installed. cbn. by rewrite <- app_assoc.
Qed.

(** What a run of [on_event_end] tells about the call. *)
Lemma on_event_end_outcome {h w k p i r msgs} :
  on_event_end k p i (h, w) = (r, (h, installed h w msgs)) →
  (on_event_end k p i (h, w)).1 = r
  ∧ handler_after (on_event_end k p i) (h, w) = h
  ∧ new_effects (on_event_end k p i) (h, w)
    = SetContext (context h) :: (Send (Some (context h)) <$> msgs)
  ∧ emitted (on_event_end k p i) (h, w) = msgs.
Proof.
  intros Hrun.
  split; [by rewrite Hrun|].
  split; [unfold handler_after; by rewrite Hrun|].
  split.
  - apply (new_effects_installed _ h w h). by rewrite Hrun.
  - apply (emitted_installed _ h w h). by rewrite Hrun.
Qed.

(** The comprehension over the items of a list: when it returns, every
    item was a retrieved record with some text, and the attachments are
    theirs. *)
Lemma text_elements_inv idx (items : list PyValue) elements :
  text_elements idx (ItemValue <$> items) = Return elements →
  ∃ records,
    items = PyNodeWithScore <$> records
    ∧ Forall has_text records
    ∧ elements = imap (fun j r =>
                   Text.mk (source_name (idx + j))
                           (TextNode.get_text (NodeWithScore.node r)))
                   records.
Proof.
  revert idx elements.
  induction items as [|source rest IH]; intros idx elements.
  - cbn. intros [= <-]. by exists [].
  - destruct source as [|s|l|n|r]; cbn; try done.
    unfold Text_new.
    destruct (String.eqb_spec (TextNode.get_text (NodeWithScore.node n)) "")
      as [|Htext]; [done|].
    destruct (text_elements (S idx) (ItemValue <$> rest)) as [els|e] eqn:Hrest;
      [|done].
    intros [= <-].
    destruct (IH (S idx) els Hrest) as (records & -> & Hrecords & ->).
    exists (n :: records). split; [done|]. split; [by constructor|].
    cbn. rewrite Nat.add_0_r. f_equal.
    apply imap_ext. intros j x _. cbn. do 2 f_equal. lia.
Qed.

(** The comprehension stops at the first item that is no retrieved
    record ([AttributeError]) or is one without text ([ValueError]). *)
Lemma text_elements_stops idx (good : list NodeWithScore.t) bad rest e :
  Forall has_text good →
  ((∀ n, bad ≠ PyNodeWithScore n) ∧ e = AttributeError)
  ∨ ((∃ r, bad = PyNodeWithScore r
           ∧ TextNode.get_text (NodeWithScore.node r) = "")
     ∧ e = ValueError) →
  text_elements idx
    (ItemValue <$> ((PyNodeWithScore <$> good) ++ bad :: rest)%list)
  = Raise e.
Proof.
  intros Hgood Hbad. revert idx.
  induction Hgood as [|r good Hr Hgood IH]; intros idx.
  - cbn. destruct Hbad as [[Hbad ->]|[(r & -> & Htext) ->]].
    + destruct bad as [|?|?|n|?]; try done. by destruct (Hbad n).
    + cbn. unfold Text_new. by rewrite Htext.
  - cbn. rewrite (Text_new_has_text _ r Hr).
    specialize (IH (S idx)). cbn in IH. by rewrite IH.
Qed.

#[global] Instance source_name_inj : Inj (=) (=) source_name.
Proof.
  intros a b Hab. unfold source_name in Hab.
  by apply (inj (String.app "Source ")), (inj pretty) in Hab.
Qed.

(** The three ways the end of a [RETRIEVE] event can go, by the value
    under the nodes key: a non-empty list of records with text (one
    message), a false value (nothing), anything else (an exception, and
    nothing). *)
Lemma on_event_end_retrieve_cases h w payload i :
  (∃ records,
     records ≠ []
     ∧ Forall has_text records
     ∧ dict_get payload EventPayload.NODES = PyList (PyNodeWithScore <$> records)
     ∧ on_event_end CBEventType.RETRIEVE (Some payload) i (h, w)
       = (Return (),
          (h, installed h w
                [Message.mk_kwargs
                   ("Retrieved the following sources: "
                    +:+ String.concat "\, "
                          (source_name <$> seq 0 (length records)))
                   CBEventType.RETRIEVE None
                   (Some (imap (fun idx r =>
                                  Text.mk (source_name idx)
                                    (TextNode.get_text (NodeWithScore.node r)))
                               records))
                   (anchor h) PyNone])))
  ∨ (truthy (dict_get payload EventPayload.NODES) = false
     ∧ on_event_end CBEventType.RETRIEVE (Some payload) i (h, w)
       = (Return (), (h, installed h w [])))
  ∨ (truthy (dict_get payload EventPayload.NODES) = true
     ∧ (∀ records,
          Forall has_text records →
          dict_get payload EventPayload.NODES
          ≠ PyList (PyNodeWithScore <$> records))
     ∧ ∃ e, on_event_end CBEventType.RETRIEVE (Some payload) i (h, w)
            = (Raise e, (h, installed h w []))).
Proof.
  rewrite on_event_end_retrieve, retrieve_block_eq.
  destruct (dict_get payload EventPayload.NODES) as [|s|items|n|r].
  - right. left. done.
  - destruct s as [|a s]; [right; left; done|].
    right. right. split; [done|]. split; [done|]. by eexists.
  - destruct items as [|item items]; [right; left; done|].
    cbn [truthy length bool_decide decide_rel iterate].
    rewrite bool_decide_eq_false_2 by (cbn; lia). cbn [negb].
    destruct (text_elements 0 (ItemValue <$> item :: items)) as [els|e] eqn:Hels.
    + apply text_elements_inv in Hels as (records & Hitems & Htext & ->).
      left. exists records.
      split; [by destruct records|]. split; [done|].
      split; [by rewrite Hitems|].
      rewrite source_refs_seq_0, Hitems, !length_fmap. done.
    + right. right. split; [done|]. split; [|by eexists].
      intros records Htext [= Heq]. rewrite Heq in Hels.
      by rewrite text_elements_records_0 in Hels.
  - right. right. split; [done|]. split; [done|]. by eexists.
  - right. right. split; [done|]. split; [done|]. by eexists.
Qed.

(** X1. The end of a [RETRIEVE] event whose nodes are missing or false
    ([None], an empty list, an empty string): the context is installed,
    nothing is sent, nothing is raised. *)
Theorem retrieve_without_sources h w payload i :
  truthy (dict_get payload EventPayload.NODES) = false →
  (on_event_end CBEventType.RETRIEVE (Some payload) i (h, w)).1 = Return ()
  ∧ emitted (on_event_end CBEventType.RETRIEVE (Some payload) i) (h, w) = []
  ∧ new_effects (on_event_end CBEventType.RETRIEVE (Some payload) i) (h, w)
    = [SetContext (context h)].
Proof.
  intros Hfalse.
  destruct (on_event_end_retrieve_cases h w payload i)
    as [(records & Hne & _ & Hnodes & _)|[[_ Hrun]|[Htrue _]]].
  - rewrite Hnodes in Hfalse. by destruct records.
  - destruct (on_event_end_outcome Hrun) as (? & _ & ? & ?). done.
  - congruence.
Qed.

Lemma retrieve_without_sources_witness :
  (on_event_end CBEventType.RETRIEVE (Some Sample.answer) ""
     (Sample.handler_in_trace, Sample.worker_thread)).1 = Return ()
  ∧ emitted (on_event_end CBEventType.RETRIEVE (Some Sample.answer) "")
      (Sample.handler_in_trace, Sample.worker_thread) = []
  ∧ new_effects (on_event_end CBEventType.RETRIEVE (Some Sample.answer) "")
      (Sample.handler_in_trace, Sample.worker_thread)
    = [SetContext (context Sample.handler_in_trace)].
Proof. apply retrieve_without_sources. reflexivity. Defined.

(** X2. The end of a [RETRIEVE] event whose list of nodes has, after
    retrieved records with text, a first item that is no retrieved
    record, or is one whose text is empty: the first raises
    [AttributeError], the second [ValueError], in both cases after the
    context is installed and before anything is sent; the handler is as
    before. *)
Theorem retrieve_malformed_item h w payload
    (good : list NodeWithScore.t) bad rest e i :
  payload !! EventPayload.NODES
  = Some (PyList ((PyNodeWithScore <$> good) ++ bad :: rest)%list) →
  Forall has_text good →
  ((∀ n, bad ≠ PyNodeWithScore n) ∧ e = AttributeError)
  ∨ ((∃ r, bad = PyNodeWithScore r
           ∧ TextNode.get_text (NodeWithScore.node r) = "")
     ∧ e = ValueError) →
  (on_event_end CBEventType.RETRIEVE (Some payload) i (h, w)).1 = Raise e
  ∧ handler_after (on_event_end CBEventType.RETRIEVE (Some payload) i) (h, w)
    = h
  ∧ emitted (on_event_end CBEventType.RETRIEVE (Some payload) i) (h, w) = []
  ∧ new_effects (on_event_end CBEventType.RETRIEVE (Some payload) i) (h, w)
    = [SetContext (context h)].
Proof.
  intros Hnodes Hgood Hbad.
  assert (Hrun : on_event_end CBEventType.RETRIEVE (Some payload) i (h, w)
                 = (Raise e, (h, installed h w []))).
  { rewrite on_event_end_retrieve, retrieve_block_eq.
    unfold dict_get. rewrite Hnodes. cbn [from_option id truthy iterate].
    rewrite bool_decide_eq_false_2; cbn [negb].
    - by rewrite (text_elements_stops 0 good bad rest e Hgood Hbad).
    - rewrite length_app. cbn. lia. }
  destruct (on_event_end_outcome Hrun) as (? & ? & ? & ?). done.
Qed.

Lemma retrieve_malformed_item_witness :
  ((on_event_end CBEventType.RETRIEVE (Some Sample.mixed_nodes) ""
      (Sample.handler_in_trace, Sample.worker_thread)).1
   = Raise AttributeError
   ∧ handler_after (on_event_end CBEventType.RETRIEVE (Some Sample.mixed_nodes) "")
       (Sample.handler_in_trace, Sample.worker_thread)
     = Sample.handler_in_trace
   ∧ emitted (on_event_end CBEventType.RETRIEVE (Some Sample.mixed_nodes) "")
       (Sample.handler_in_trace, Sample.worker_thread) = []
   ∧ new_effects (on_event_end CBEventType.RETRIEVE (Some Sample.mixed_nodes) "")
       (Sample.handler_in_trace, Sample.worker_thread)
     = [SetContext (context Sample.handler_in_trace)])
  ∧ ((on_event_end CBEventType.RETRIEVE (Some Sample.blank_then_text) ""
        (Sample.handler_in_trace, Sample.worker_thread)).1
     = Raise ValueError
     ∧ handler_after
         (on_event_end CBEventType.RETRIEVE (Some Sample.blank_then_text) "")
         (Sample.handler_in_trace, Sample.worker_thread)
       = Sample.handler_in_trace
     ∧ emitted
         (on_event_end CBEventType.RETRIEVE (Some Sample.blank_then_text) "")
         (Sample.handler_in_trace, Sample.worker_thread) = []
     ∧ new_effects
         (on_event_end CBEventType.RETRIEVE (Some Sample.blank_then_text) "")
         (Sample.handler_in_trace, Sample.worker_thread)
       = [SetContext (context Sample.handler_in_trace)]).
Proof.
  split.
  - apply (retrieve_malformed_item Sample.handler_in_trace
             Sample.worker_thread Sample.mixed_nodes
             [Sample.record "A"] (PyStr "B") [] AttributeError "").
    + reflexivity.
    + apply Forall_cons. split; [discriminate|]. apply Forall_nil_2.
    + left. split; [discriminate|reflexivity].
  - apply (retrieve_malformed_item Sample.handler_in_trace
             Sample.worker_thread Sample.blank_then_text
             [] (PyNodeWithScore (Sample.record "")) [PyStr "B"] ValueError "").
    + reflexivity.
    + apply Forall_nil_2.
    + right. split; [|reflexivity]. exists (Sample.record ""). split; reflexivity.
Defined.

(** X3. The end of a [RETRIEVE] event sends a message exactly when the
    payload has, under the nodes key, a non-empty list made only of
    retrieved records that each have some text. *)
Theorem retrieve_emits_iff h w payload i :
  emitted (on_event_end CBEventType.RETRIEVE (Some payload) i) (h, w) ≠ []
  ↔ ∃ records,
      records ≠ []
      ∧ Forall has_text records
      ∧ payload !! EventPayload.NODES
        = Some (PyList (PyNodeWithScore <$> records)).
Proof.
  destruct (on_event_end_retrieve_cases h w payload i)
    as [(records & Hne & Htext & Hnodes & Hrun)
       |[[Hfalse Hrun]|(Htrue & Hno & e & Hrun)]];
    destruct (on_event_end_outcome Hrun) as (_ & _ & _ & ->).
  - split; [|done]. intros _. exists records. split; [done|]. split; [done|].
    unfold dict_get in Hnodes.
    destruct (payload !! EventPayload.NODES) as [v|]; cbn in Hnodes;
      [by subst|done].
  - split; [done|]. intros (records & Hne & _ & Hnodes).
    unfold dict_get in Hfalse. rewrite Hnodes in Hfalse. by destruct records.
  - split; [done|]. intros (records & Hne & Htext & Hnodes).
    destruct (Hno records Htext). unfold dict_get. by rewrite Hnodes.
Qed.

(** X4. A message sent at the end of a [RETRIEVE] event has at least one
    attachment, the names of its attachments are pairwise different, and
    its content is the sentence over exactly these names, in order; it
    has no indent and no prompt. *)
Theorem retrieve_message_shape h w payload i m :
  m ∈ emitted (on_event_end CBEventType.RETRIEVE (Some payload) i) (h, w) →
  ∃ attachments,
    Message.elements m = Some attachments
    ∧ attachments ≠ []
    ∧ NoDup (Text.name <$> attachments)
    ∧ Message.content m
      = "Retrieved the following sources: "
        +:+ String.concat "\, " (Text.name <$> attachments)
    ∧ Message.indent m = None
    ∧ Message.prompt m = PyNone.
Proof.
  destruct (on_event_end_retrieve_cases h w payload i)
    as [(records & Hne & _ & Hnodes & Hrun)
       |[[Hfalse Hrun]|(Htrue & Hno & e & Hrun)]];
    destruct (on_event_end_outcome Hrun) as (_ & _ & _ & ->); intros Hm;
    [|by apply elem_of_nil in Hm..].
  apply list_elem_of_singleton in Hm as ->. cbn.
  assert (Hnames :
    Text.name <$> imap (fun idx r =>
                    Text.mk (source_name idx)
                            (TextNode.get_text (NodeWithScore.node r)))
                  records
    = source_name <$> seq 0 (length records)).
  { rewrite <- (source_refs_seq_0 records), fmap_imap. done. }
  eexists. split; [done|]. rewrite Hnames.
  split; [by destruct records|].
  split; [apply NoDup_fmap_2, NoDup_seq; apply _|done].
Qed.

Lemma retrieve_message_shape_witness :
  ∃ attachments,
    Some [Text.mk "Source 0" "A"; Text.mk "Source 1" "B"] = Some attachments
    ∧ attachments ≠ []
    ∧ NoDup (Text.name <$> attachments)
    ∧ "Retrieved the following sources: Source 0\, Source 1"
      = "Retrieved the following sources: "
        +:+ String.concat "\, " (Text.name <$> attachments)
    ∧ (None : option nat) = None
    ∧ PyNone = PyNone.
Proof.
  apply (retrieve_message_shape Sample.handler_in_trace Sample.worker_thread
           Sample.two_nodes ""
           (Message.mk_kwargs
              "Retrieved the following sources: Source 0\, Source 1"
              CBEventType.RETRIEVE None
              (Some [Text.mk "Source 0" "A"; Text.mk "Source 1" "B"])
              (Some "root-1") PyNone)).
  apply list_elem_of_here.
Defined.

(** X5. The end of an [LLM] event whose response is missing or false
    ([None], an empty string, an empty list): one message with the empty
    string as content is sent all the same, with the prompt of the
    payload, under the anchor. *)
Theorem llm_false_response h w payload i :
  truthy (dict_get payload EventPayload.RESPONSE) = false →
  (on_event_end CBEventType.LLM (Some payload) i (h, w)).1 = Return ()
  ∧ emitted (on_event_end CBEventType.LLM (Some payload) i) (h, w)
    = [Message.mk_kwargs "" CBEventType.LLM None None (anchor h)
         (dict_get payload EventPayload.PROMPT)].
Proof.
  intros Hfalse.
  assert (Hrun : on_event_end CBEventType.LLM (Some payload) i (h, w)
    = (Return (),
       (h, installed h w
             [Message.mk_kwargs "" CBEventType.LLM None None (anchor h)
                (dict_get payload EventPayload.PROMPT)]))).
  { rewrite on_event_end_llm, llm_block_eq.
    unfold response_content. by rewrite Hfalse. }
  destruct (on_event_end_outcome Hrun) as (? & _ & _ & ?). done.
Qed.

Lemma llm_false_response_witness :
  let payload := Sample.empty_response in
  (on_event_end CBEventType.LLM (Some payload) ""
     (Sample.handler_in_trace, Sample.worker_thread)).1 = Return ()
  ∧ emitted (on_event_end CBEventType.LLM (Some payload) "")
      (Sample.handler_in_trace, Sample.worker_thread)
    = [Message.mk_kwargs "" CBEventType.LLM None None (Some "root-1")
         (PyStr "what is the answer")].
Proof.
  cbn zeta.
  apply (llm_false_response Sample.handler_in_trace Sample.worker_thread
           Sample.empty_response "").
  reflexivity.
Defined.

(** X6. The end of an [LLM] event whose response is a true value other
    than a chat response (a non-empty string, a non-empty list, a
    retrieved record): [AttributeError] is raised after the context is
    installed and before anything is sent. *)
Theorem llm_malformed_response h w payload i :
  truthy (dict_get payload EventPayload.RESPONSE) = true →
  (∀ r, dict_get payload EventPayload.RESPONSE ≠ PyChatResponse r) →
  (on_event_end CBEventType.LLM (Some payload) i (h, w)).1
  = Raise AttributeError
  ∧ handler_after (on_event_end CBEventType.LLM (Some payload) i) (h, w) = h
  ∧ emitted (on_event_end CBEventType.LLM (Some payload) i) (h, w) = []
  ∧ new_effects (on_event_end CBEventType.LLM (Some payload) i) (h, w)
    = [SetContext (context h)].
Proof.
  intros Htrue Hbad.
  assert (Hrun : on_event_end CBEventType.LLM (Some payload) i (h, w)
                 = (Raise AttributeError, (h, installed h w []))).
  { rewrite on_event_end_llm, llm_block_eq.
    unfold response_content. rewrite Htrue.
    destruct (dict_get payload EventPayload.RESPONSE) as [|?|?|?|r];
      try done.
    by destruct (Hbad r). }
  destruct (on_event_end_outcome Hrun) as (? & ? & ? & ?). done.
Qed.

Lemma llm_malformed_response_witness :
  let payload := Sample.text_response in
  (on_event_end CBEventType.LLM (Some payload) ""
     (Sample.handler_in_trace, Sample.worker_thread)).1
  = Raise AttributeError
  ∧ handler_after (on_event_end CBEventType.LLM (Some payload) "")
      (Sample.handler_in_trace, Sample.worker_thread)
    = Sample.handler_in_trace
  ∧ emitted (on_event_end CBEventType.LLM (Some payload) "")
      (Sample.handler_in_trace, Sample.worker_thread) = []
  ∧ new_effects (on_event_end CBEventType.LLM (Some payload) "")
      (Sample.handler_in_trace, Sample.worker_thread)
    = [SetContext (context Sample.handler_in_trace)].
Proof.
  cbn zeta.
  apply (llm_malformed_response Sample.handler_in_trace Sample.worker_thread
           Sample.text_response "").
  - reflexivity.
  - discriminate.
Defined.

(** Every way a call of [on_event_end] with a payload can go. *)
Lemma on_event_end_cases h w k payload i :
  (∃ m, on_event_end k (Some payload) i (h, w)
        = (Return (), (h, installed h w [m]))
        ∧ (k = CBEventType.RETRIEVE ∨ k = CBEventType.LLM)
        ∧ Message.parent_id m = anchor h
        ∧ Message.author m = k
        ∧ Message.indent m = None)
  ∨ on_event_end k (Some payload) i (h, w)
    = (Return (), (h, installed h w []))
  ∨ (∃ e, on_event_end k (Some payload) i (h, w)
          = (Raise e, (h, installed h w []))
          ∧ (k = CBEventType.RETRIEVE ∨ k = CBEventType.LLM)).
Proof.
  destruct (decide (k = CBEventType.RETRIEVE)) as [->|Hr].
  - destruct (on_event_end_retrieve_cases h w payload i)
      as [(records & _ & _ & _ & Hrun)|[[_ Hrun]|(_ & _ & e & Hrun)]].
    + left. eexists. split; [exact Hrun|]. auto.
    + right. left. done.
    + right. right. exists e. auto.
  - destruct (decide (k = CBEventType.LLM)) as [->|Hl].
    + rewrite on_event_end_llm, llm_block_eq.
      destruct (response_content _) as [c|e].
      * left. eexists. split; [done|]. auto.
      * right. right. exists e. auto.
    + right. left. by apply on_event_end_other.
Qed.

(** X7. When [on_event_end] raises, nothing was sent: the exception
    comes from reading the payload of a [RETRIEVE] or [LLM] event, after
    the context is installed and before the send; the handler is as
    before. *)
Theorem raise_sends_nothing h w k p i e :
  (on_event_end k p i (h, w)).1 = Raise e →
  (k = CBEventType.RETRIEVE ∨ k = CBEventType.LLM)
  ∧ is_Some p
  ∧ handler_after (on_event_end k p i) (h, w) = h
  ∧ emitted (on_event_end k p i) (h, w) = []
  ∧ new_effects (on_event_end k p i) (h, w) = [SetContext (context h)].
Proof.
  intros Hraise. destruct p as [payload|]; [|done].
  destruct (on_event_end_cases h w k payload i)
    as [(m & Hrun & _)|[Hrun|(e' & Hrun & Hk)]];
    try (rewrite Hrun in Hraise; discriminate).
  destruct (on_event_end_outcome Hrun) as (_ & ? & ? & ?). done.
Qed.

Lemma raise_sends_nothing_witness :
  let payload := Sample.text_nodes in
  (CBEventType.RETRIEVE = CBEventType.RETRIEVE
   ∨ CBEventType.RETRIEVE = CBEventType.LLM)
  ∧ is_Some (Some payload)
  ∧ handler_after (on_event_end CBEventType.RETRIEVE (Some payload) "")
      (Sample.handler_in_trace, Sample.worker_thread)
    = Sample.handler_in_trace
  ∧ emitted (on_event_end CBEventType.RETRIEVE (Some payload) "")
      (Sample.handler_in_trace, Sample.worker_thread) = []
  ∧ new_effects (on_event_end CBEventType.RETRIEVE (Some payload) "")
      (Sample.handler_in_trace, Sample.worker_thread)
    = [SetContext (context Sample.handler_in_trace)].
Proof.
  cbn zeta.
  apply (raise_sends_nothing Sample.handler_in_trace Sample.worker_thread
           CBEventType.RETRIEVE (Some Sample.text_nodes) "" AttributeError).
  reflexivity.
Defined.

(** *** Sequences of calls *)

Lemma calls_cons c cs s : calls (c :: cs) s = calls cs (call c s).
Proof. reflexivity. Qed.

Lemma sent_app l1 l2 : sent (l1 ++ l2) = (sent l1 ++ sent l2)%list.
Proof. apply omap_app. Qed.

(** One call: what it adds to the effects and what it leaves of the
    handler. *)
Lemma call_step c h w :
  ∃ new,
    effects (call c (h, w)).2 = (effects w ++ new)%list
    ∧ Forall (under (context h)) new
    ∧ Forall (fun m => Message.parent_id m = None
                       ∨ Message.parent_id m = anchor h) (sent new)
    ∧ (length (sent new) ≤ if is_trace_call c then 0 else 1)%nat
    ∧ ((if is_event_start c then 1 else 0) ≤ length (sent new))%nat
    ∧ context (call c (h, w)).1 = context h
    ∧ (is_trace_call c = false → (call c (h, w)).1 = h)
    ∧ (is_start_trace c = false → root_message h = None →
       root_message (call c (h, w)).1 = None).
Proof.
  destruct c as [k p i|k p i|t|t tm]; cbn [call is_trace_call is_event_start
                                            is_start_trace].
  - rewrite on_event_start_run. eexists. split; [done|]. cbn.
    repeat split; auto; repeat constructor.
  - destruct p as [payload|].
    + destruct (on_event_end_cases h w k payload i)
        as [(m & -> & _ & Hp & _)|[->|(e & -> & _)]];
        (eexists; split; [done|]); cbn;
        repeat split; auto; repeat constructor; auto.
    + exists []. rewrite app_nil_r. cbn.
      repeat split; auto; try lia; constructor.
  - exists []. rewrite app_nil_r. cbn.
    repeat split; auto; try lia; try done; constructor.
  - exists []. rewrite app_nil_r. cbn.
    repeat split; auto; try lia; try done; constructor.
Qed.

(** A sequence of calls: the effects grow at the end, all for the
    captured context, which stays. *)
Lemma calls_steps cs h w :
  ∃ new,
    effects (calls cs (h, w)).2 = (effects w ++ new)%list
    ∧ Forall (under (context h)) new
    ∧ (length (event_starts cs) ≤ length (sent new))%nat
    ∧ (length (sent new) ≤ length (event_calls cs))%nat
    ∧ context (calls cs (h, w)).1 = context h.
Proof.
  revert h w. induction cs as [|c cs IH]; intros h w.
  - exists []. cbn. rewrite app_nil_r. repeat split; auto.
  - rewrite calls_cons.
    destruct (call_step c h w)
      as (new1 & Heff1 & Hunder1 & _ & Hle1 & Hge1 & Hctx1 & _).
    destruct (call c (h, w)) as [h1 w1]. cbn [fst snd] in *.
    destruct (IH h1 w1) as (new2 & Heff2 & Hunder2 & Hge2 & Hle2 & Hctx2).
    exists (new1 ++ new2)%list.
    rewrite Heff2, Heff1, Hctx2, Hctx1, <- app_assoc, sent_app, length_app.
    rewrite Hctx1 in Hunder2.
    split; [done|]. split; [by apply Forall_app|].
    unfold event_starts, event_calls in *. rewrite !filter_cons.
    destruct c as [k p i|k p i|t|t tm]; cbn in *;
      repeat case_decide; try done; cbn; (split; [lia|split; [lia|done]]).
Qed.

Lemma effects_of_calls_eq cs h w new :
  effects (calls cs (h, w)).2 = (effects w ++ new)%list →
  effects_of_calls cs (h, w) = new.
Proof.
  intros Heff. unfold effects_of_calls. rewrite Heff. cbn.
  apply drop_app_length.
Qed.

(** X8. Whatever the sequence of calls and the thread they come from,
    the handler only adds to what was done before, and all it does is
    done for the context captured at construction: it installs no other
    context and every message is sent with that context in the ambient
    slot. *)
Theorem calls_under_captured_context cs s :
  effects (calls cs s).2
  = (effects s.2 ++ effects_of_calls cs s)%list
  ∧ Forall (under (context s.1)) (effects_of_calls cs s)
  ∧ context (calls cs s).1 = context s.1.
Proof.
  destruct s as [h w].
  destruct (calls_steps cs h w) as (new & Heff & Hunder & _ & _ & Hctx).
  rewrite (effects_of_calls_eq _ _ _ _ Heff). done.
Qed.

(** X9. A sequence of calls sends at least one message per
    [on_event_start] and at most one message per event call; the calls
    of [start_trace] and [end_trace] send nothing. *)
Theorem calls_message_count cs s :
  (length (event_starts cs) ≤ length (emitted_by_calls cs s))%nat
  ∧ (length (emitted_by_calls cs s) ≤ length (event_calls cs))%nat.
Proof.
  destruct s as [h w].
  destruct (calls_steps cs h w) as (new & Heff & _ & Hge & Hle & _).
  unfold emitted_by_calls. rewrite (effects_of_calls_eq _ _ _ _ Heff). done.
Qed.

Lemma calls_frame cs s :
  event_starts_to_ignore (calls cs s).1 = event_starts_to_ignore s.1
  ∧ event_ends_to_ignore (calls cs s).1 = event_ends_to_ignore s.1
  ∧ context (calls cs s).1 = context s.1.
Proof.
  revert s. induction cs as [|c cs IH]; intros s; [done|].
  rewrite calls_cons. destruct (IH (call c s)) as (-> & -> & ->).
  apply call_frame.
Qed.

(** Event calls leave the handler as it is. *)
Lemma calls_events_handler cs h w :
  Forall (fun c => is_trace_call c = false) cs → (calls cs (h, w)).1 = h.
Proof.
  revert h w. induction cs as [|c cs IH]; intros h w Hcs; [done|].
  apply Forall_cons in Hcs as [Hc Hcs]. rewrite calls_cons.
  destruct (call_step c h w) as (_ & _ & _ & _ & _ & _ & _ & Hh & _).
  specialize (Hh Hc). destruct (call c (h, w)) as [h1 w1]. cbn in Hh. subst h1.
  by apply IH.
Qed.

(** Without [start_trace], a handler that has no root message keeps
    none and sends only messages without parent. *)
Lemma calls_without_start_trace cs h w :
  root_message h = None →
  Forall (fun c => is_start_trace c = false) cs →
  ∃ new,
    effects (calls cs (h, w)).2 = (effects w ++ new)%list
    ∧ Forall (fun m => Message.parent_id m = None) (sent new).
Proof.
  revert h w. induction cs as [|c cs IH]; intros h w Hroot Hcs.
  - exists []. cbn. by rewrite app_nil_r.
  - apply Forall_cons in Hcs as [Hc Hcs]. rewrite calls_cons.
    destruct (call_step c h w)
      as (new1 & Heff1 & _ & Hparent1 & _ & _ & _ & _ & Hroot1).
    specialize (Hroot1 Hc Hroot).
    destruct (call c (h, w)) as [h1 w1]. cbn [fst snd] in *.
    destruct (IH h1 w1 Hroot1 Hcs) as (new2 & Heff2 & Hparent2).
    exists (new1 ++ new2)%list.
    rewrite Heff2, Heff1, <- app_assoc, sent_app. split; [done|].
    apply Forall_app. split; [|done].
    eapply Forall_impl; [exact Hparent1|].
    intros m [?|Hm]; [done|]. rewrite Hm. unfold anchor. by rewrite Hroot.
Qed.

(** X10. Event calls keep the anchor: after [start_trace] and any number
    of [on_event_start] and [on_event_end] calls, the handler is the one
    [start_trace] left, and a message that [on_event_end] then sends has
    as parent the identifier of the root message the session had when
    [start_trace] ran ([None] if it had none), whatever the session holds
    by then. *)
Theorem anchor_kept_by_events cs s trace_id k p i :
  Forall (fun c => is_trace_call c = false) cs →
  let root_id :=
    match Session.root_message
            (sessions s.2 (ChainlitContext.session (context s.1))) with
    | Some root => Message.id root
    | None => None
    end in
  let s1 := (start_trace trace_id s).2 in
  (calls cs s1).1 = s1.1
  ∧ anchor (calls cs s1).1 = root_id
  ∧ ∀ w m,
      m ∈ emitted (on_event_end k p i) ((calls cs s1).1, w) →
      Message.parent_id m = root_id.
Proof.
  intros Hcs. cbn zeta. destruct s as [h w0].
  change (start_trace trace_id (h, w0)).2
    with (mkHandler
            (Session.root_message
               (sessions w0 (ChainlitContext.session (context h))))
            (context h) (event_starts_to_ignore h) (event_ends_to_ignore h),
          w0).
  rewrite (calls_events_handler cs _ w0 Hcs). cbn [fst snd].
  split; [done|]. split; [done|].
  intros w m Hm.
  destruct (on_event_end_emitted
              (mkHandler
                 (Session.root_message
                    (sessions w0 (ChainlitContext.session (context h))))
                 (context h) (event_starts_to_ignore h)
                 (event_ends_to_ignore h)) w k p i)
    as [Hnone|(m' & Hone & Hparent & _)].
  - rewrite Hnone in Hm. by apply elem_of_nil in Hm.
  - rewrite Hone in Hm. apply list_elem_of_singleton in Hm as ->. done.
Qed.

Lemma anchor_kept_by_events_witness :
  let cs := [OnEventStart CBEventType.RETRIEVE None "";
             OnEventEnd CBEventType.RETRIEVE (Some Sample.two_nodes) ""] in
  let s1 := (start_trace None (Sample.handler, Sample.worker_thread)).2 in
  (calls cs s1).1 = s1.1
  ∧ anchor (calls cs s1).1 = Some "root-1"
  ∧ ∀ w m,
      m ∈ emitted (on_event_end CBEventType.LLM (Some Sample.answer) "")
            ((calls cs s1).1, w) →
      Message.parent_id m = Some "root-1".
Proof.
  cbn zeta.
  apply (anchor_kept_by_events
           [OnEventStart CBEventType.RETRIEVE None "";
            OnEventEnd CBEventType.RETRIEVE (Some Sample.two_nodes) ""]
           (Sample.handler, Sample.worker_thread) None
           CBEventType.LLM (Some Sample.answer) "").
  repeat constructor.
Defined.

(** X11. A handler comes out of [__init__] only where a context is set:
    it captures that context, does nothing to the world and has no root
    message; until the first [start_trace], every message it sends is
    without parent. *)
Theorem no_parent_before_start_trace starts ends w0 h w0' cs w :
  __init__ starts ends w0 = (Return h, w0') →
  Forall (fun c => is_start_trace c = false) cs →
  w0' = w0
  ∧ context_var w0 = Some (context h)
  ∧ anchor h = None
  ∧ Forall (fun m => Message.parent_id m = None) (emitted_by_calls cs (h, w)).
Proof.
  intros Hinit Hcs.
  unfold __init__, mbind, Py_bind, mret, Py_ret, context_var_get in Hinit.
  destruct (context_var w0) as [c|] eqn:Hvar; [|done].
  injection Hinit as <- <-.
  split; [done|]. split; [done|]. split; [done|].
  destruct (calls_without_start_trace cs
              (mkHandler None c (default DEFAULT_IGNORE starts)
                 (default DEFAULT_IGNORE ends)) w eq_refl Hcs)
    as (new & Heff & Hparent).
  unfold emitted_by_calls. by rewrite (effects_of_calls_eq _ _ _ _ Heff).
Qed.

Lemma no_parent_before_start_trace_witness :
  Sample.main_thread = Sample.main_thread
  ∧ context_var Sample.main_thread = Some (context Sample.handler)
  ∧ anchor Sample.handler = None
  ∧ Forall (fun m => Message.parent_id m = None)
      (emitted_by_calls
         [OnEventStart CBEventType.LLM None "";
          OnEventEnd CBEventType.LLM (Some Sample.answer) "";
          EndTrace None None;
          OnEventEnd CBEventType.RETRIEVE (Some Sample.two_nodes) ""]
         (Sample.handler, Sample.worker_thread)).
Proof.
  apply (no_parent_before_start_trace None None Sample.main_thread
           Sample.handler Sample.main_thread).
  - reflexivity.
  - repeat constructor.
Defined.

Lemma trace_call_absorbs c0 c s :
  is_trace_call c0 = true → is_trace_call c = true →
  call c (call c0 s) = call c s.
Proof.
  destruct s as [h w].
  by destruct c0 as [| |t0|t0 tm0]; destruct c as [| |t|t tm].
Qed.

(** X12. Traces do not nest: after any run of [start_trace] and
    [end_trace] calls the handler and the world are as if only the last
    of them had been made. A second [start_trace] overwrites the root
    message of the first, and one [end_trace] clears it whatever the
    number of [start_trace] calls before. *)
Theorem last_trace_call_wins cs c s :
  Forall (fun c => is_trace_call c = true) cs →
  is_trace_call c = true →
  calls (cs ++ [c]) s = call c s.
Proof.
  intros Hcs Hc. revert s.
  induction Hcs as [|c0 cs Hc0 Hcs IH]; intros s; [done|].
  cbn [app]. rewrite calls_cons, IH. by apply trace_call_absorbs.
Qed.

Lemma last_trace_call_wins_witness :
  calls [StartTrace (Some "a"); StartTrace (Some "b"); EndTrace (Some "b") None]
    (Sample.handler, Sample.worker_thread)
  = call (EndTrace (Some "b") None) (Sample.handler, Sample.worker_thread).
Proof.
  apply (last_trace_call_wins
           [StartTrace (Some "a"); StartTrace (Some "b")]
           (EndTrace (Some "b") None)
           (Sample.handler, Sample.worker_thread)).
  - repeat constructor.
  - reflexivity.
Defined.

(** X13. What the event methods do not read: the outcome of
    [on_event_start] (result, effects, ambient context) is the same for
    every payload, event id, root message and pair of ignore lists; the
    outcome of [on_event_end] is the same for every event id and pair of
    ignore lists. *)
Theorem event_methods_unread root root' ctx starts ends starts' ends'
    w k p p' i i' :
  ((on_event_start k p i (mkHandler root ctx starts ends, w)).1
   = (on_event_start k p' i' (mkHandler root' ctx starts' ends', w)).1
   ∧ (on_event_start k p i (mkHandler root ctx starts ends, w)).2.2
     = (on_event_start k p' i' (mkHandler root' ctx starts' ends', w)).2.2)
  ∧ ((on_event_end k p i (mkHandler root ctx starts ends, w)).1
     = (on_event_end k p i' (mkHandler root ctx starts' ends', w)).1
     ∧ (on_event_end k p i (mkHandler root ctx starts ends, w)).2.2
       = (on_event_end k p i' (mkHandler root ctx starts' ends', w)).2.2).
Proof.
  split.
  - by rewrite !on_event_start_run.
  - change (on_event_end k p i') with (on_event_end k p i).
    apply on_event_end_lists_unread.
Qed.

(** The default list names neither of the two kinds [on_event_end]
    sends for. *)
Lemma default_ignore_kinds k :
  k ∈ DEFAULT_IGNORE → k ≠ CBEventType.RETRIEVE ∧ k ≠ CBEventType.LLM.
Proof.
  unfold DEFAULT_IGNORE. intros Hk.
  repeat (apply elem_of_cons in Hk as [->|Hk]; [done|]).
  by apply elem_of_nil in Hk.
Qed.

(** X14. With the default end list, the list and the method agree: for
    a handler built without [event_ends_to_ignore], at any later point,
    [on_event_end] for a kind of its end-ignore list sends nothing and
    raises nothing, whatever the payload. *)
Theorem default_end_list_silent starts w0 h w0' cs w k p i :
  __init__ starts None w0 = (Return h, w0') →
  k ∈ event_ends_to_ignore (calls cs (h, w)).1 →
  (on_event_end k p i (calls cs (h, w))).1 = Return ()
  ∧ emitted (on_event_end k p i) (calls cs (h, w)) = [].
Proof.
  intros Hinit Hk.
  destruct (calls_frame cs (h, w)) as (_ & Hends & _).
  rewrite Hends in Hk. cbn [fst] in Hk.
  unfold __init__, mbind, Py_bind, mret, Py_ret, context_var_get in Hinit.
  destruct (context_var w0) as [c|]; [|done].
  injection Hinit as <- <-. cbn in Hk.
  destruct (default_ignore_kinds k Hk) as [Hr Hl].
  destruct (calls cs _) as [h1 w1]. destruct p as [payload|].
  - pose proof (on_event_end_other h1 w1 k payload i Hr Hl) as Hrun.
    destruct (on_event_end_outcome Hrun) as (? & _ & _ & ?). done.
  - split; [done|]. by apply (emitted_unchanged _ h1 w1 h1).
Qed.

Lemma default_end_list_silent_witness :
  let s := calls [StartTrace None; OnEventStart CBEventType.QUERY None ""]
             (Sample.handler, Sample.worker_thread) in
  (on_event_end CBEventType.QUERY (Some Sample.two_nodes) "" s).1 = Return ()
  ∧ emitted (on_event_end CBEventType.QUERY (Some Sample.two_nodes) "") s = [].
Proof.
  cbn zeta.
  apply (default_end_list_silent None Sample.main_thread Sample.handler
           Sample.main_thread
           [StartTrace None; OnEventStart CBEventType.QUERY None ""]
           Sample.worker_thread CBEventType.QUERY (Some Sample.two_nodes) "").
  - reflexivity.
  - cbn. unfold DEFAULT_IGNORE.
    do 4 apply list_elem_of_further. apply list_elem_of_here.
Defined.
